(** * Horovod coordinator messages: horovod/common/mpi_message.h

    A shallow embedding of the message model declared in the header: the
    element-type enumeration, the two operation-kind enumerations and the
    four message classes with their private fields and in-class member
    initialisers.  The member functions are declared in the header and
    defined in another translation unit; what is proved about the classes
    below rests on the declarations and the field initialisers. *)

From Stdlib Require Import ZArith String List Lia.
Import ListNotations.
Open Scope Z_scope.

(** ** [enum MPIDataType] (lines 26-37) *)

Inductive MPIDataType : Type :=
  | HOROVOD_UINT8
  | HOROVOD_INT8
  | HOROVOD_UINT16
  | HOROVOD_INT16
  | HOROVOD_INT32
  | HOROVOD_INT64
  | HOROVOD_FLOAT16
  | HOROVOD_FLOAT32
  | HOROVOD_FLOAT64
  | HOROVOD_BOOL.

(** The enumerator values written in the header: the ordinal that goes on
    the wire. *)
Definition MPIDataType_ordinal (value : MPIDataType) : Z :=
  match value with
  | HOROVOD_UINT8 => 0
  | HOROVOD_INT8 => 1
  | HOROVOD_UINT16 => 2
  | HOROVOD_INT16 => 3
  | HOROVOD_INT32 => 4
  | HOROVOD_INT64 => 5
  | HOROVOD_FLOAT16 => 6
  | HOROVOD_FLOAT32 => 7
  | HOROVOD_FLOAT64 => 8
  | HOROVOD_BOOL => 9
  end.

(** The enumerators in the order of their declaration. *)
Definition MPIDataType_members : list MPIDataType :=
  [HOROVOD_UINT8; HOROVOD_INT8; HOROVOD_UINT16; HOROVOD_INT16; HOROVOD_INT32;
   HOROVOD_INT64; HOROVOD_FLOAT16; HOROVOD_FLOAT32; HOROVOD_FLOAT64;
   HOROVOD_BOOL].

(** ** [class MPIRequest] (lines 44-86) *)

Module MPIRequest.

(** [enum RequestType { ALLREDUCE = 0, ALLGATHER = 1, BROADCAST = 2 }] *)
Inductive RequestType : Type :=
  | ALLREDUCE
  | ALLGATHER
  | BROADCAST.

Definition RequestType_ordinal (value : RequestType) : Z :=
  match value with
  | ALLREDUCE => 0
  | ALLGATHER => 1
  | BROADCAST => 2
  end.

End MPIRequest.

(** The private fields, in the order of lines 79-85. *)
Record MPIRequest : Type := Build_MPIRequest {
  request_rank_ : Z;                          (* int32_t *)
  request_type_ : MPIRequest.RequestType;
  tensor_type_ : MPIDataType;
  root_rank_ : Z;                             (* int32_t *)
  device_ : Z;                                (* int32_t *)
  tensor_name_ : string;                      (* std::string *)
  tensor_shape_ : list Z                      (* std::vector<int64_t> *)
}.

(** A default-constructed [MPIRequest]: every field takes its in-class
    initialiser; [std::string] and [std::vector] default to empty. *)
Definition MPIRequest_init : MPIRequest :=
  {| request_rank_ := 0;
     request_type_ := MPIRequest.ALLREDUCE;
     tensor_type_ := HOROVOD_UINT8;
     root_rank_ := 0;
     device_ := 0;
     tensor_name_ := EmptyString;
     tensor_shape_ := [] |}.

(** ** [class MPIRequestList] (lines 88-105) *)

Record MPIRequestList : Type := Build_MPIRequestList {
  requests_ : list MPIRequest;                (* std::vector<MPIRequest> *)
  request_shutdown_ : bool                    (* bool shutdown_ *)
}.

Definition MPIRequestList_init : MPIRequestList :=
  {| requests_ := []; request_shutdown_ := false |}.

(** ** [class MPIResponse] (lines 112-155) *)

Module MPIResponse.

(** [enum ResponseType { ALLREDUCE = 0, ALLGATHER = 1, BROADCAST = 2,
    ERROR = 3 }] *)
Inductive ResponseType : Type :=
  | ALLREDUCE
  | ALLGATHER
  | BROADCAST
  | ERROR.

Definition ResponseType_ordinal (value : ResponseType) : Z :=
  match value with
  | ALLREDUCE => 0
  | ALLGATHER => 1
  | BROADCAST => 2
  | ERROR => 3
  end.

End MPIResponse.

(** The private fields, in the order of lines 150-154. *)
Record MPIResponse : Type := Build_MPIResponse {
  response_type_ : MPIResponse.ResponseType;
  tensor_names_ : list string;                (* std::vector<std::string> *)
  error_message_ : string;                    (* std::string *)
  devices_ : list Z;                          (* std::vector<int32_t> *)
  tensor_sizes_ : list Z                      (* std::vector<int64_t> *)
}.

Definition MPIResponse_init : MPIResponse :=
  {| response_type_ := MPIResponse.ALLREDUCE;
     tensor_names_ := [];
     error_message_ := EmptyString;
     devices_ := [];
     tensor_sizes_ := [] |}.

(** ** [class MPIResponseList] (lines 157-174) *)

Record MPIResponseList : Type := Build_MPIResponseList {
  responses_ : list MPIResponse;              (* std::vector<MPIResponse> *)
  response_shutdown_ : bool                   (* bool shutdown_ *)
}.

Definition MPIResponseList_init : MPIResponseList :=
  {| responses_ := []; response_shutdown_ := false |}.

(** ** Fusing gather responses *)

(** Modelled from the spec: the header declares no error type; section 7 of
    the specification names the error kinds of the protocol. *)
Inductive ProtocolError : Type :=
  | MalformedMessage
  | RequestMismatch
  | InvalidFusion.

(** The outcome of a fallible operation. *)
Inductive result (A : Type) : Type :=
  | Ok (a : A)
  | Err (e : ProtocolError).

Arguments Ok {A} a.
Arguments Err {A} e.

(** Modelled from the spec: the body of [MPIResponse::add_allgather_response]
    (header line 143, "To fuse multiple allgather responses") is defined
    outside the header.  Section 4.1 of the specification gives the
    operation: it appends the other gather response's names, devices and
    sizes onto the receiver's, in order; it is legal only when both are of
    gather kind, and mismatched kinds signal [InvalidFusion].  The C++
    member mutates the receiver and returns [void]; here the receiver after
    the call is returned, or the error signalled. *)
Definition add_allgather_response (self response : MPIResponse)
  : result MPIResponse :=
  match response_type_ self, response_type_ response with
  | MPIResponse.ALLGATHER, MPIResponse.ALLGATHER =>
      Ok {| response_type_ := response_type_ self;
            tensor_names_ := tensor_names_ self ++ tensor_names_ response;
            error_message_ := error_message_ self;
            devices_ := devices_ self ++ devices_ response;
            tensor_sizes_ := tensor_sizes_ self ++ tensor_sizes_ response |}
  | _, _ => Err InvalidFusion
  end.

(** * Properties *)

(** ** Decidable equality of kinds *)

Lemma ResponseType_eq_dec (a b : MPIResponse.ResponseType) :
  {a = b} + {a <> b}.
Proof. decide equality. Defined.

(** ** The element-type enumeration *)

Lemma MPIDataType_ordinal_inj (a b : MPIDataType) :
  MPIDataType_ordinal a = MPIDataType_ordinal b -> a = b.
Proof. destruct a, b; simpl; intro H; first [reflexivity | discriminate H]. Qed.

(** C5: the tensor element-type enumeration is closed with exactly the ten
    members uint8, int8, uint16, int16, int32, int64, float16, float32,
    float64 and bool, and their wire ordinals are 0 to 9 in that order. *)
Theorem MPIDataType_closed_ordinals_0_to_9 :
  (forall t : MPIDataType, In t MPIDataType_members) /\
  NoDup MPIDataType_members /\
  length MPIDataType_members = 10%nat /\
  map MPIDataType_ordinal MPIDataType_members = [0; 1; 2; 3; 4; 5; 6; 7; 8; 9] /\
  MPIDataType_ordinal HOROVOD_UINT8 = 0 /\
  MPIDataType_ordinal HOROVOD_INT8 = 1 /\
  MPIDataType_ordinal HOROVOD_UINT16 = 2 /\
  MPIDataType_ordinal HOROVOD_INT16 = 3 /\
  MPIDataType_ordinal HOROVOD_INT32 = 4 /\
  MPIDataType_ordinal HOROVOD_INT64 = 5 /\
  MPIDataType_ordinal HOROVOD_FLOAT16 = 6 /\
  MPIDataType_ordinal HOROVOD_FLOAT32 = 7 /\
  MPIDataType_ordinal HOROVOD_FLOAT64 = 8 /\
  MPIDataType_ordinal HOROVOD_BOOL = 9.
Proof.
  split.
  { intro t. unfold MPIDataType_members. destruct t; simpl; tauto. }
  split.
  { apply (NoDup_map_inv MPIDataType_ordinal).
    unfold MPIDataType_members. simpl.
    repeat (constructor; [simpl; intro H; repeat (destruct H as [H | H]; [discriminate H |]); exact H |]).
    constructor. }
  repeat split.
Qed.

(** ** Newly constructed messages *)

(** C10: every newly constructed message has definite defaults: a request has
    rank 0, kind ALLREDUCE, element type HOROVOD_UINT8, root rank 0, device 0,
    an empty name and an empty shape; a response has kind ALLREDUCE, an empty
    error message and empty name, device and size lists; both batch types
    have no item and [shutdown = false]. *)
Theorem message_defaults :
  (request_rank_ MPIRequest_init = 0 /\
   request_type_ MPIRequest_init = MPIRequest.ALLREDUCE /\
   tensor_type_ MPIRequest_init = HOROVOD_UINT8 /\
   root_rank_ MPIRequest_init = 0 /\
   device_ MPIRequest_init = 0 /\
   tensor_name_ MPIRequest_init = EmptyString /\
   tensor_shape_ MPIRequest_init = []) /\
  (response_type_ MPIResponse_init = MPIResponse.ALLREDUCE /\
   error_message_ MPIResponse_init = EmptyString /\
   tensor_names_ MPIResponse_init = [] /\
   devices_ MPIResponse_init = [] /\
   tensor_sizes_ MPIResponse_init = []) /\
  (requests_ MPIRequestList_init = [] /\
   request_shutdown_ MPIRequestList_init = false) /\
  (responses_ MPIResponseList_init = [] /\
   response_shutdown_ MPIResponseList_init = false).
Proof. repeat split. Qed.

(** ** Fusing gather responses *)

Lemma add_allgather_response_gather (self response : MPIResponse) :
  response_type_ self = MPIResponse.ALLGATHER ->
  response_type_ response = MPIResponse.ALLGATHER ->
  add_allgather_response self response =
    Ok {| response_type_ := MPIResponse.ALLGATHER;
          tensor_names_ := tensor_names_ self ++ tensor_names_ response;
          error_message_ := error_message_ self;
          devices_ := devices_ self ++ devices_ response;
          tensor_sizes_ := tensor_sizes_ self ++ tensor_sizes_ response |}.
Proof.
  intros Hs Hr. unfold add_allgather_response. rewrite Hs, Hr. reflexivity.
Qed.

Lemma add_allgather_response_mismatch (self response : MPIResponse) :
  ~ (response_type_ self = MPIResponse.ALLGATHER /\
     response_type_ response = MPIResponse.ALLGATHER) ->
  add_allgather_response self response = Err InvalidFusion.
Proof.
  intro H. unfold add_allgather_response.
  destruct (response_type_ self), (response_type_ response);
    first [reflexivity | exfalso; apply H; split; reflexivity].
Qed.

(** C2: extending a gather response with another gather response appends the
    other's tensor names, devices and per-rank sizes onto the receiver's
    lists, in order; in particular fusing the response for tensor A with
    sizes [2,3] and the one for tensor B with sizes [4,1], both over ranks
    [0,1] (devices [d0] and [d1]), yields one response with names [A,B] and
    sizes [2,3,4,1]. *)
Theorem add_allgather_response_appends :
  (forall self response : MPIResponse,
     response_type_ self = MPIResponse.ALLGATHER ->
     response_type_ response = MPIResponse.ALLGATHER ->
     exists fused : MPIResponse,
       add_allgather_response self response = Ok fused /\
       response_type_ fused = MPIResponse.ALLGATHER /\
       tensor_names_ fused = tensor_names_ self ++ tensor_names_ response /\
       devices_ fused = devices_ self ++ devices_ response /\
       tensor_sizes_ fused = tensor_sizes_ self ++ tensor_sizes_ response) /\
  (forall d0 d1 : Z,
     add_allgather_response
       {| response_type_ := MPIResponse.ALLGATHER;
          tensor_names_ := ["A"%string];
          error_message_ := EmptyString;
          devices_ := [d0; d1];
          tensor_sizes_ := [2; 3] |}
       {| response_type_ := MPIResponse.ALLGATHER;
          tensor_names_ := ["B"%string];
          error_message_ := EmptyString;
          devices_ := [d0; d1];
          tensor_sizes_ := [4; 1] |}
     = Ok {| response_type_ := MPIResponse.ALLGATHER;
             tensor_names_ := ["A"%string; "B"%string];
             error_message_ := EmptyString;
             devices_ := [d0; d1; d0; d1];
             tensor_sizes_ := [2; 3; 4; 1] |}).
Proof.
  split.
  - intros self response Hs Hr.
    eexists. split; [apply add_allgather_response_gather; assumption |].
    simpl. repeat split.
  - intros d0 d1. reflexivity.
Qed.

Lemma add_allgather_response_appends_witness :
  exists fused : MPIResponse,
    add_allgather_response
      {| response_type_ := MPIResponse.ALLGATHER;
         tensor_names_ := ["grad1"%string];
         error_message_ := EmptyString;
         devices_ := [0; 1; 2];
         tensor_sizes_ := [10; 20; 30] |}
      {| response_type_ := MPIResponse.ALLGATHER;
         tensor_names_ := ["grad2"%string];
         error_message_ := EmptyString;
         devices_ := [0; 1; 2];
         tensor_sizes_ := [5; 0; 7] |} = Ok fused /\
    response_type_ fused = MPIResponse.ALLGATHER /\
    tensor_names_ fused = ["grad1"%string; "grad2"%string] /\
    devices_ fused = [0; 1; 2; 0; 1; 2] /\
    tensor_sizes_ fused = [10; 20; 30; 5; 0; 7].
Proof.
  exact (proj1 add_allgather_response_appends
           {| response_type_ := MPIResponse.ALLGATHER;
              tensor_names_ := ["grad1"%string];
              error_message_ := EmptyString;
              devices_ := [0; 1; 2];
              tensor_sizes_ := [10; 20; 30] |}
           {| response_type_ := MPIResponse.ALLGATHER;
              tensor_names_ := ["grad2"%string];
              error_message_ := EmptyString;
              devices_ := [0; 1; 2];
              tensor_sizes_ := [5; 0; 7] |}
           eq_refl eq_refl).
Defined.

(** C3: extending one response with another is legal only when both are of
    gather kind: the operation yields a fused response exactly for two
    gather responses, and for every pair whose kinds are not both gather it
    signals [InvalidFusion] instead of merging. *)
Theorem add_allgather_response_invalid_fusion
  (self response : MPIResponse) :
  ((exists fused : MPIResponse,
      add_allgather_response self response = Ok fused)
   <-> (response_type_ self = MPIResponse.ALLGATHER /\
        response_type_ response = MPIResponse.ALLGATHER)) /\
  (add_allgather_response self response = Err InvalidFusion
   <-> ~ (response_type_ self = MPIResponse.ALLGATHER /\
          response_type_ response = MPIResponse.ALLGATHER)).
Proof.
  destruct (ResponseType_eq_dec (response_type_ self) MPIResponse.ALLGATHER)
    as [Hs | Hs];
  destruct (ResponseType_eq_dec (response_type_ response) MPIResponse.ALLGATHER)
    as [Hr | Hr].
  - rewrite (add_allgather_response_gather self response Hs Hr). split; split.
    + intros _. split; assumption.
    + intros _. eexists. reflexivity.
    + intro H. discriminate H.
    + intro H. exfalso. apply H. split; assumption.
  - rewrite (add_allgather_response_mismatch self response) by tauto.
    split; split; try tauto.
    intros [fused H]. discriminate H.
  - rewrite (add_allgather_response_mismatch self response) by tauto.
    split; split; try tauto.
    intros [fused H]. discriminate H.
  - rewrite (add_allgather_response_mismatch self response) by tauto.
    split; split; try tauto.
    intros [fused H]. discriminate H.
Qed.

(** ** The operation-kind enumerations *)

(** X1: [MPIRequest::RequestType] (line 46) is closed with the three members
    ALLREDUCE, ALLGATHER and BROADCAST; their values are 0, 1, 2 in that
    order, no two members share a value, and an integer is the value of a
    member exactly when it lies in 0..2. *)
Theorem RequestType_closed_ordinals_0_to_2 :
  (forall q : MPIRequest.RequestType,
     In q [MPIRequest.ALLREDUCE; MPIRequest.ALLGATHER; MPIRequest.BROADCAST]) /\
  map MPIRequest.RequestType_ordinal
    [MPIRequest.ALLREDUCE; MPIRequest.ALLGATHER; MPIRequest.BROADCAST]
    = [0; 1; 2] /\
  (forall a b : MPIRequest.RequestType,
     MPIRequest.RequestType_ordinal a = MPIRequest.RequestType_ordinal b ->
     a = b) /\
  (forall z : Z,
     (exists q, MPIRequest.RequestType_ordinal q = z) <-> 0 <= z <= 2).
Proof.
  split; [intro q; destruct q; simpl; tauto |].
  split; [reflexivity |].
  split.
  - intros a b H. destruct a, b; simpl in H;
      first [reflexivity | discriminate H].
  - intro z. split.
    + intros [q Hq]. destruct q; simpl in Hq; lia.
    + intro Hz.
      assert (Hcases : z = 0 \/ z = 1 \/ z = 2) by lia.
      destruct Hcases as [H | [H | H]]; subst z.
      * exists MPIRequest.ALLREDUCE. reflexivity.
      * exists MPIRequest.ALLGATHER. reflexivity.
      * exists MPIRequest.BROADCAST. reflexivity.
Qed.

(** X2: [MPIResponse::ResponseType] (line 114) is closed with the four
    members ALLREDUCE, ALLGATHER, BROADCAST and ERROR; their values are
    0, 1, 2, 3 in that order, no two members share a value, and an integer is
    the value of a member exactly when it lies in 0..3. *)
Theorem ResponseType_closed_ordinals_0_to_3 :
  (forall p : MPIResponse.ResponseType,
     In p [MPIResponse.ALLREDUCE; MPIResponse.ALLGATHER;
           MPIResponse.BROADCAST; MPIResponse.ERROR]) /\
  map MPIResponse.ResponseType_ordinal
    [MPIResponse.ALLREDUCE; MPIResponse.ALLGATHER;
     MPIResponse.BROADCAST; MPIResponse.ERROR]
    = [0; 1; 2; 3] /\
  (forall a b : MPIResponse.ResponseType,
     MPIResponse.ResponseType_ordinal a = MPIResponse.ResponseType_ordinal b ->
     a = b) /\
  (forall z : Z,
     (exists p, MPIResponse.ResponseType_ordinal p = z) <-> 0 <= z <= 3).
Proof.
  split; [intro p; destruct p; simpl; tauto |].
  split; [reflexivity |].
  split.
  - intros a b H. destruct a, b; simpl in H;
      first [reflexivity | discriminate H].
  - intro z. split.
    + intros [p Hp]. destruct p; simpl in Hp; lia.
    + intro Hz.
      assert (Hcases : z = 0 \/ z = 1 \/ z = 2 \/ z = 3) by lia.
      destruct Hcases as [H | [H | [H | H]]]; subst z.
      * exists MPIResponse.ALLREDUCE. reflexivity.
      * exists MPIResponse.ALLGATHER. reflexivity.
      * exists MPIResponse.BROADCAST. reflexivity.
      * exists MPIResponse.ERROR. reflexivity.
Qed.

(** X3: the two kind enumerations agree on the wire: each request kind has
    the value of the response kind of the same name, and ERROR is the one
    response kind whose value no request kind has. *)
Theorem request_kinds_share_response_ordinals :
  MPIRequest.RequestType_ordinal MPIRequest.ALLREDUCE
    = MPIResponse.ResponseType_ordinal MPIResponse.ALLREDUCE /\
  MPIRequest.RequestType_ordinal MPIRequest.ALLGATHER
    = MPIResponse.ResponseType_ordinal MPIResponse.ALLGATHER /\
  MPIRequest.RequestType_ordinal MPIRequest.BROADCAST
    = MPIResponse.ResponseType_ordinal MPIResponse.BROADCAST /\
  (forall p : MPIResponse.ResponseType,
     (exists q : MPIRequest.RequestType,
        MPIRequest.RequestType_ordinal q = MPIResponse.ResponseType_ordinal p)
     <-> p <> MPIResponse.ERROR).
Proof.
  repeat (split; [reflexivity |]).
  intro p. split.
  - intros [q Hq] Hp. subst p. destruct q; simpl in Hq; discriminate Hq.
  - intro Hp. destruct p.
    + exists MPIRequest.ALLREDUCE. reflexivity.
    + exists MPIRequest.ALLGATHER. reflexivity.
    + exists MPIRequest.BROADCAST. reflexivity.
    + exfalso. apply Hp. reflexivity.
Qed.
